(** * Interquartile-range anomaly detection over daily sale counts

    A shallow embedding of [anomalies.py]: the configuration lookup
    ([get_config]), the guarded engine construction ([connect]), the
    analysis ([days_unusual_sale_counts]) and the script entry point
    ([main]).

    The analysis is written in the source as a chain of pandas calls.
    Each call is embedded as the list function pandas computes:

    - [transaction_counts["count"]]      the column, [map count];
    - [Series.quantile([0.25, 0.75])]    numpy's [linear] percentile
                                         ([_get_indexes], [_get_gamma],
                                         [_lerp]) after the empty-series
                                         guard of pandas;
    - [Series.between(lo, hi)]           [lo <= x] and [x <= hi];
    - [df[~mask]]                        [filter] on the negated mask;
    - [sort_values(by=["orderdate"])]    a sort on the date key;
    - [to_csv(path, index=False)]        an output event.

    Numbers.  The quantiles are float64 in pandas.  They are modelled as
    exact rationals extended with NaN.  For integer counts below 2^50
    every intermediate value is a multiple of 1/8 of magnitude below
    2^53, which float64 represents exactly, so on that range the
    rational model and the float computation agree. *)

From Stdlib Require Import String ZArith QArith Qround Lqa Lia List Bool.
From Stdlib Require Import Permutation Sorted.
Import ListNotations.

Local Open Scope Z_scope.

(** ** Data model *)

(** A calendar date, as its proleptic ordinal ([datetime.date.toordinal]).
    Python orders dates as it orders their ordinals. *)
Definition date := Z.

(** One row of the query result: [orderdate::date, count(<star>)]. *)
Record DailyCount := mkDailyCount {
  orderdate : date;
  count : Z
}.

(** A data frame is the list of its rows, in index order. *)
Definition DataFrame := list DailyCount.

Definition DailyCount_eq_dec (a b : DailyCount) : {a = b} + {a <> b}.
Proof. decide equality; apply Z.eq_dec. Defined.

(** ** float64 values: an exact rational, or NaN *)

Inductive float :=
| Fin (q : Q)
| NaN.

Definition fsub (a b : float) : float :=
  match a, b with
  | Fin x, Fin y => Fin (x - y)%Q
  | _, _ => NaN
  end.

Definition fadd (a b : float) : float :=
  match a, b with
  | Fin x, Fin y => Fin (x + y)%Q
  | _, _ => NaN
  end.

Definition fmul (a b : float) : float :=
  match a, b with
  | Fin x, Fin y => Fin (x * y)%Q
  | _, _ => NaN
  end.

(** [a <= b] on floats; every comparison with NaN is false. *)
Definition fle (a b : float) : bool :=
  match a, b with
  | Fin x, Fin y => Qle_bool x y
  | _, _ => false
  end.

(** The float [a] is the number [v]. *)
Definition is_value (a : float) (v : Q) : Prop :=
  match a with
  | Fin x => (x == v)%Q
  | NaN => False
  end.

Definition of_int (n : Z) : float := Fin (inject_Z n).

(** ** Sorting on an integer key *)

Section SortBy.
Context {A : Type} (key : A -> Z).

Fixpoint insert_by (x : A) (l : list A) : list A :=
  match l with
  | [] => [x]
  | y :: t => if key x <? key y then x :: l else y :: insert_by x t
  end.

Fixpoint sort_by (l : list A) : list A :=
  match l with
  | [] => []
  | x :: t => insert_by x (sort_by t)
  end.

Definition key_le (a b : A) : Prop := key a <= key b.

Definition sorted_by (l : list A) : Prop := StronglySorted key_le l.
End SortBy.

(** ** [Series.quantile] with linear interpolation *)

(** [arr[i]] with Python's negative indices. *)
Definition item (arr : list Z) (i : Z) : Z :=
  let n := Z.of_nat (length arr) in
  nth (Z.to_nat (if i <? 0 then n + i else i)) arr 0.

(** numpy's [_lerp(a, b, t)]: [a + (b - a) * t], recomputed as
    [b - (b - a) * (1 - t)] where [t >= 0.5]. *)
Definition _lerp (a b : Z) (t : Q) : Q :=
  let diff_b_a := inject_Z (b - a) in
  if Qle_bool (1 # 2) t
  then (inject_Z b - diff_b_a * (1 - t))%Q
  else (inject_Z a + diff_b_a * t)%Q.

(** The virtual index of the [linear] method: [(n - 1) * q]. *)
Definition virtual_index (values_count : Z) (q : Q) : Q :=
  (inject_Z (values_count - 1) * q)%Q.

(** numpy's [_get_indexes]: the floor of the virtual index and its
    successor; both are the last position when the virtual index reaches
    it and the first when it is negative. *)
Definition _get_indexes (virtual : Q) (values_count : Z) : Z * Z :=
  if Qle_bool (inject_Z (values_count - 1)) virtual then (-1, -1)
  else if Qle_bool 0 virtual then (Qfloor virtual, Qfloor virtual + 1)
  else (0, 0).

(** [Series.quantile(q)] for a single [q]: NaN on the empty series,
    otherwise numpy's percentile on the sorted values. *)
Definition quantile (values : list Z) (q : Q) : float :=
  match values with
  | [] => NaN
  | _ =>
      let arr := sort_by (fun v => v) values in
      let values_count := Z.of_nat (length arr) in
      let virtual := virtual_index values_count q in
      let '(previous_index, next_index) := _get_indexes virtual values_count in
      let gamma := (virtual - inject_Z previous_index)%Q in
      Fin (_lerp (item arr previous_index) (item arr next_index) gamma)
  end.



(** ** The computation of [days_unusual_sale_counts] *)

Section Analysis.
Variable transaction_counts : DataFrame.

Definition counts : list Z := map count transaction_counts.

Definition q_1 : float := quantile counts (1 # 4).
Definition q_3 : float := quantile counts (3 # 4).
Definition iqr : float := fsub q_3 q_1.

Definition lower_bound : float := fsub q_1 (fmul (Fin (3 # 2)) iqr).
Definition upper_bound : float := fadd q_3 (fmul (Fin (3 # 2)) iqr).

(** [Series.between(left, right)], inclusive on both sides. *)
Definition between (x : Z) (left right : float) : bool :=
  fle left (of_int x) && fle (of_int x) right.

(** The row mask [~transaction_counts["count"].between(...)]. *)
Definition is_anomaly (r : DailyCount) : bool :=
  negb (between (count r) lower_bound upper_bound).

(** [sort_values(by=["orderdate"])].  Rows with equal dates keep their
    relative order here; pandas' default sort promises nothing for
    them, and no result below relies on their order. *)
Definition sort_values (df : DataFrame) : DataFrame :=
  sort_by orderdate df.

Definition anomalies : DataFrame :=
  sort_values (filter is_anomaly transaction_counts).
End Analysis.

(** ** Effects: exceptions and the observable trace *)

(** A Python exception: its class and the text [str(error)] prints. *)
Record exn := mkExn {
  exn_class : string;
  exn_msg : string
}.

Inductive result (A : Type) :=
| Ok (a : A)
| Raise (e : exn).
Arguments Ok {A} a.
Arguments Raise {A} e.

(** What a run does to the outside world, in order. *)
Inductive event :=
| Print (line : string)
| Connect
| Query (sql : string)
| Close
| ToCsv (path : string) (header : list string) (rows : DataFrame).

(** A computation extends the trace and returns or raises.  The events
    emitted before an exception stay in the trace. *)
Definition M (A : Type) := list event -> result A * list event.

Definition ret {A} (a : A) : M A := fun t => (Ok a, t).

Definition raise {A} (e : exn) : M A := fun t => (Raise e, t).

Definition bind {A B} (m : M A) (f : A -> M B) : M B :=
  fun t =>
    match m t with
    | (Ok a, t') => f a t'
    | (Raise e, t') => (Raise e, t')
    end.

(** [try: m  except Exception as error: h error]. *)
Definition try_except {A} (m : M A) (h : exn -> M A) : M A :=
  fun t =>
    match m t with
    | (Ok a, t') => (Ok a, t')
    | (Raise e, t') => h e t'
    end.

(** [try: m  finally: cleanup], the shape of a [with] block's exit. *)
Definition finally {A} (m : M A) (cleanup : M unit) : M A :=
  fun t =>
    match m t with
    | (r, t') =>
        match cleanup t' with
        | (Ok _, t'') => (r, t'')
        | (Raise e, t'') => (Raise e, t'')
        end
    end.

Definition emit (e : event) : M unit := fun t => (Ok tt, t ++ [e]).

(** An outside call whose answer the environment fixes. *)
Definition lift {A} (r : result A) : M A := fun t => (r, t).

Declare Scope monad_scope.
Delimit Scope monad_scope with monad.
Notation "x <- m ;; k" := (bind m (fun x => k))
  (at level 61, m at next level, right associativity) : monad_scope.
Notation "m ;; k" := (bind m (fun _ => k))
  (at level 61, right associativity) : monad_scope.

(** ** The outside world *)

(** A dict with string keys, as the list of its items. *)
Definition dict := list (string * string).

Fixpoint dict_set (k v : string) (d : dict) : dict :=
  match d with
  | [] => [(k, v)]
  | (k', v') :: t =>
      if String.eqb k k' then (k', v) :: t else (k', v') :: dict_set k v t
  end.


(** A [ConfigParser] after [read]: its sections and, for each, the pairs
    [items] returns. *)
Definition ConfigParser := list (string * list (string * string)).

Record URL := mkURL {
  drivername : string;
  url_params : dict
}.

Record Engine := mkEngine {
  engine_url : URL
}.

(** What the program cannot decide by itself.  [create_engine] opens no
    connection: SQLAlchemy connects on the first [Engine.connect()], so
    the server's answer is a field of its own, asked by [Engine_connect]
    only. *)
Record Env := mkEnv {
  (** [ConfigParser.read(filename)]; a missing file parses to no section. *)
  read_ini : string -> result ConfigParser;
  (** [URL.create(drivername, <params>)]; raises on a bad keyword. *)
  URL_create : string -> dict -> result URL;
  (** the dialect and driver lookup of [create_engine]. *)
  load_dialect : URL -> result unit;
  (** the server's answer to a connection attempt: it raises when the
      server is unreachable or rejects the credentials. *)
  open_connection : URL -> result unit;
  (** the rows the query returns. *)
  run_query : string -> result DataFrame
}.

Local Open Scope monad_scope.
Local Open Scope string_scope.

(** ** The program *)

Definition has_section (parser : ConfigParser) (section : string) : bool :=
  existsb (fun s => String.eqb (fst s) section) parser.

Definition items (parser : ConfigParser) (section : string) : list (string * string) :=
  match find (fun s => String.eqb (fst s) section) parser with
  | Some s => snd s
  | None => []
  end.

Definition get_config (env : Env) (filename : string) : M dict :=
  let config := "postgresql" in
  parser <- lift (read_ini env filename) ;;
  if has_section parser config then
    let params := items parser config in
    ret (fold_left (fun db_config param => dict_set (fst param) (snd param) db_config)
                   params [])
  else
    raise (mkExn "ValueError" ("Section postgresql not found in " ++ filename)).

Definition create_engine (env : Env) (url : URL) : M Engine :=
  lift (load_dialect env url) ;;
  ret (mkEngine url).

Definition connect (env : Env) : M (option Engine) :=
  try_except
    (params <- get_config env "database.ini" ;;
     url <- lift (URL_create env "postgresql" params) ;;
     engine <- create_engine env url ;;
     ret (Some engine))
    (fun error =>
       emit (Print (exn_msg error)) ;;
       ret None).

(** [engine.connect()]: the first real connection attempt. *)
Definition Engine_connect (env : Env) (engine : Engine) : M unit :=
  lift (open_connection env (engine_url engine)) ;;
  emit Connect.

Definition read_sql (env : Env) (sql : string) : M DataFrame :=
  emit (Query sql) ;;
  lift (run_query env sql).

(** [to_csv(path, index=False)]: a header line, then the rows. *)
Definition to_csv (path : string) (df : DataFrame) : M unit :=
  emit (ToCsv path ["orderdate"; "count"] df).

Definition sales_by_date : string :=
  "select orderdate::date, count (*) from sales.salesorderheader group by orderdate::date".

Definition days_unusual_sale_counts (env : Env) (engine : Engine) : M unit :=
  Engine_connect env engine ;;
  finally
    (transaction_counts <- read_sql env sales_by_date ;;
     to_csv "dates_unusual_sales.csv" (anomalies transaction_counts))
    (emit Close).

Definition main (env : Env) : M unit :=
  db_engine <- connect env ;;
  match db_engine with
  | Some engine => days_unusual_sale_counts env engine
  | None => ret tt
  end.

Local Close Scope string_scope.
Local Close Scope monad_scope.

(** ** Concrete inputs *)

Definition ini_ok : ConfigParser :=
  [("postgresql"%string,
    [("host", "localhost"); ("database", "Adventureworks");
     ("username", "postgres"); ("password", "postgres")]%string)].

(** An environment: the parsed configuration file, the server's answer
    to a connection attempt, and the rows of the query. *)
Definition env_of (parser : ConfigParser) (server : result unit)
    (table : DataFrame) : Env :=
  mkEnv (fun _ => Ok parser)
        (fun driver params => Ok (mkURL driver params))
        (fun _ => Ok tt)
        (fun _ => server)
        (fun _ => Ok table).

Definition refused : exn :=
  mkExn "OperationalError" "connection to server failed: Connection refused".

(** A configuration written with psycopg2's key [user], which
    [URL.create] does not accept. *)
Definition ini_user_key : ConfigParser :=
  [("postgresql"%string,
    [("host", "localhost"); ("user", "postgres")]%string)].

Definition unexpected_keyword : exn :=
  mkExn "TypeError"
        "URL.create() got an unexpected keyword argument 'user'".

Definition env_bad_keyword : Env :=
  mkEnv (fun _ => Ok ini_user_key)
        (fun _ _ => Raise unexpected_keyword)
        (fun _ => Ok tt)
        (fun _ => Ok tt)
        (fun _ => Ok []).

Definition no_such_table : exn :=
  mkExn "ProgrammingError"
        "relation sales.salesorderheader does not exist".

(** A reachable server whose query fails. *)
Definition env_query_fails : Env :=
  mkEnv (fun _ => Ok ini_ok)
        (fun driver params => Ok (mkURL driver params))
        (fun _ => Ok tt)
        (fun _ => Ok tt)
        (fun _ => Raise no_such_table).

Definition some_engine : Engine := mkEngine (mkURL "postgresql" []).

Definition scenario_a : DataFrame :=
  [ mkDailyCount 738521 10; mkDailyCount 738522 12; mkDailyCount 738523 12;
    mkDailyCount 738524 13; mkDailyCount 738525 14; mkDailyCount 738526 15;
    mkDailyCount 738527 100 ].

(** * Sorting facts *)

Section SortByFacts.
Context {A : Type} (key : A -> Z).

Lemma insert_by_perm (x : A) (l : list A) :
  Permutation (insert_by key x l) (x :: l).
Proof.
  induction l as [| y t IH]; simpl.
  - apply Permutation_refl.
  - destruct (key x <? key y).
    + apply Permutation_refl.
    + eapply perm_trans; [apply perm_skip, IH | apply perm_swap].
Qed.

Lemma sort_by_perm (l : list A) : Permutation (sort_by key l) l.
Proof.
  induction l as [| x t IH]; simpl.
  - apply perm_nil.
  - eapply perm_trans; [apply insert_by_perm | apply perm_skip, IH].
Qed.


Lemma sort_by_In (l : list A) (a : A) : In a (sort_by key l) <-> In a l.
Proof.
  split; apply Permutation_in;
    [apply sort_by_perm | apply Permutation_sym, sort_by_perm].
Qed.

Lemma insert_by_sorted (x : A) (l : list A) :
  sorted_by key l -> sorted_by key (insert_by key x l).
Proof.
  unfold sorted_by.
  induction l as [| y t IH]; simpl; intros Hs.
  - constructor; [constructor | constructor].
  - inversion Hs as [| ? ? Ht Hy]; subst.
    destruct (key x <? key y) eqn:E.
    + apply Z.ltb_lt in E.
      constructor; [exact Hs |].
      constructor; [unfold key_le; lia |].
      eapply Forall_impl; [| exact Hy].
      unfold key_le; intros; lia.
    + apply Z.ltb_ge in E.
      constructor; [apply IH, Ht |].
      eapply Permutation_Forall;
        [apply Permutation_sym, insert_by_perm |].
      constructor; [exact E | exact Hy].
Qed.

Lemma sort_by_sorted (l : list A) : sorted_by key (sort_by key l).
Proof.
  induction l as [| x t IH]; simpl.
  - constructor.
  - apply insert_by_sorted, IH.
Qed.

(** Two sorted arrangements of the same rows coincide as soon as no
    two distinct rows share a key. *)
Lemma sorted_by_unique (l l' : list A) :
  Permutation l l' ->
  (forall a b, In a l -> In b l -> key a = key b -> a = b) ->
  sorted_by key l -> sorted_by key l' -> l = l'.
Proof.
  unfold sorted_by.
  revert l'.
  induction l as [| a t IH]; intros l' Hp Hinj Hs Hs'.
  - apply Permutation_nil in Hp. now subst.
  - destruct l' as [| b t'].
    + apply Permutation_sym, Permutation_nil in Hp. discriminate.
    + inversion Hs as [| ? ? Ht Ha]; subst.
      inversion Hs' as [| ? ? Ht' Hb]; subst.
      assert (Hab : a = b).
      { assert (In a (b :: t')) as [-> | Hin]
          by (eapply Permutation_in; [exact Hp | now left]);
          [reflexivity |].
        assert (In b (a :: t)) as [-> | Hin']
          by (eapply Permutation_in;
              [apply Permutation_sym, Hp | now left]);
          [reflexivity |].
        apply Hinj; [now left | now right |].
        rewrite Forall_forall in Ha, Hb.
        specialize (Ha _ Hin'). specialize (Hb _ Hin).
        unfold key_le in *. lia. }
      subst b. f_equal.
      apply IH; auto.
      * eapply Permutation_cons_inv, Hp.
      * intros x y Hx Hy. apply Hinj; now right.
Qed.

Lemma sort_by_unique (l l' : list A) :
  Permutation l l' ->
  (forall a b, In a l -> In b l -> key a = key b -> a = b) ->
  sort_by key l = sort_by key l'.
Proof.
  intros Hp Hinj.
  apply sorted_by_unique.
  - eapply perm_trans; [apply sort_by_perm |].
    eapply perm_trans; [exact Hp | apply Permutation_sym, sort_by_perm].
  - intros a b Ha Hb. apply Hinj; now apply sort_by_In.
  - apply sort_by_sorted.
  - apply sort_by_sorted.
Qed.

(** The keys of the sorted rows are the sorted keys. *)
Lemma map_sort_by (l : list A) :
  map key (sort_by key l) = sort_by (fun k => k) (map key l).
Proof.
  induction l as [| x t IH]; simpl; [reflexivity |].
  rewrite <- IH.
  generalize (sort_by key t) as s. intros s.
  induction s as [| y u IHs]; simpl; [reflexivity |].
  destruct (key x <? key y); simpl; [reflexivity | now rewrite IHs].
Qed.
End SortByFacts.

Lemma NoDup_map_inj {A B : Type} (f : A -> B) (l : list A) :
  NoDup (map f l) ->
  forall a b, In a l -> In b l -> f a = f b -> a = b.
Proof.
  induction l as [| x t IH]; simpl; intros Hnd a b Ha Hb Hf.
  - contradiction.
  - inversion Hnd as [| ? ? Hx Ht]; subst.
    destruct Ha as [-> | Ha], Hb as [-> | Hb]; auto.
    + exfalso. apply Hx. rewrite Hf. now apply in_map.
    + exfalso. apply Hx. rewrite <- Hf. now apply in_map.
Qed.


(** * Quantile facts *)




Lemma Qfloor_lt_bound (x : Q) (m : Z) :
  (x < inject_Z m)%Q -> Qfloor x < m.
Proof.
  intros H. rewrite Zlt_Qlt.
  eapply Qle_lt_trans; [apply Qfloor_le | exact H].
Qed.










Lemma quantile_perm (v v' : list Z) (q : Q) :
  Permutation v v' -> quantile v q = quantile v' q.
Proof.
  intros Hp.
  assert (Hs : sort_by (fun x => x) v = sort_by (fun x => x) v')
    by (apply sort_by_unique; auto).
  destruct v as [| x t], v' as [| x' t'].
  - reflexivity.
  - apply Permutation_nil in Hp. discriminate.
  - apply Permutation_sym, Permutation_nil in Hp. discriminate.
  - unfold quantile. rewrite Hs. reflexivity.
Qed.

(** The bounds, and with them the mask, do not depend on the order of
    the rows. *)
Lemma is_anomaly_perm (df df' : DataFrame) :
  Permutation df df' ->
  forall r, is_anomaly df r = is_anomaly df' r.
Proof.
  intros Hp r.
  assert (Hc : Permutation (counts df) (counts df'))
    by (unfold counts; now apply Permutation_map).
  unfold is_anomaly, lower_bound, upper_bound, iqr, q_1, q_3.
  now rewrite !(quantile_perm _ _ _ Hc).
Qed.

Lemma filter_perm {A : Type} (f : A -> bool) (l l' : list A) :
  Permutation l l' -> Permutation (filter f l) (filter f l').
Proof.
  induction 1 as [| x l l' _ IH | x y l | l l' l'' _ IH1 _ IH2]; simpl.
  - constructor.
  - destruct (f x); [now constructor | exact IH].
  - destruct (f x), (f y);
      try apply Permutation_refl. apply perm_swap.
  - eapply perm_trans; eassumption.
Qed.


Lemma count_occ_filter_le (f : DailyCount -> bool) (l : DataFrame) (r : DailyCount) :
  (count_occ DailyCount_eq_dec (filter f l) r
   <= count_occ DailyCount_eq_dec l r)%nat.
Proof.
  induction l as [| x t IH]; simpl; [lia |].
  destruct (f x); simpl; destruct (DailyCount_eq_dec x r); lia.
Qed.

Lemma anomalies_perm (df : DataFrame) :
  Permutation (anomalies df) (filter (is_anomaly df) df).
Proof. unfold anomalies, sort_values. apply sort_by_perm. Qed.



(** * The claims *)





(** C3, as the specification states it, fails: on the counts
    [10, 12, 12, 13, 14, 15, 100] the third quartile is not 15. *)
Lemma C3_scenario_a_as_stated_fails :
  ~ (is_value (q_1 scenario_a) 12 /\
     is_value (q_3 scenario_a) 15 /\
     is_value (iqr scenario_a) 3 /\
     is_value (lower_bound scenario_a) (15 # 2) /\
     is_value (upper_bound scenario_a) (39 # 2) /\
     anomalies scenario_a = [mkDailyCount 738527 100]).
Proof.
  intros (_ & H3 & _).
  vm_compute in H3. discriminate.
Qed.

(** C3, amended: on the counts [10, 12, 12, 13, 14, 15, 100] for seven
    consecutive dates the detector computes q1 = 12 and q3 = 14.5
    (rank index 4.5, halfway between 14 and 15), hence iqr = 2.5 and
    bounds [8.25, 18.25], and reports exactly one row: the seventh
    date, with count 100. *)
Theorem C3_scenario_a :
  is_value (q_1 scenario_a) 12 /\
  is_value (q_3 scenario_a) (29 # 2) /\
  is_value (iqr scenario_a) (5 # 2) /\
  is_value (lower_bound scenario_a) (33 # 4) /\
  is_value (upper_bound scenario_a) (73 # 4) /\
  anomalies scenario_a = [mkDailyCount 738527 100].
Proof.
  repeat split; vm_compute; reflexivity.
Qed.





(** C7: the reported rows are in non-decreasing date order whatever the
    input.  Reordering the input rows changes neither which rows are
    reported nor the sequence of their dates, and with one row per date,
    as the query delivers them, the report is the same list. *)
Theorem C7_sorted_by_date (df : DataFrame) :
  sorted_by orderdate (anomalies df) /\
  forall df' : DataFrame,
    Permutation df df' ->
    map orderdate (anomalies df') = map orderdate (anomalies df) /\
    Permutation (anomalies df') (anomalies df) /\
    (NoDup (map orderdate df) -> anomalies df' = anomalies df).
Proof.
  split.
  - unfold anomalies, sort_values. apply sort_by_sorted.
  - intros df' Hp.
    pose proof (is_anomaly_perm df df' Hp) as Hmask.
    assert (Hf : Permutation (filter (is_anomaly df) df)
                             (filter (is_anomaly df') df')).
    { rewrite (filter_ext _ _ Hmask). now apply filter_perm. }
    unfold anomalies, sort_values.
    split; [| split].
    + rewrite !map_sort_by. symmetry.
      apply sort_by_unique; [now apply Permutation_map | auto].
    + eapply perm_trans; [apply sort_by_perm |].
      eapply perm_trans; [apply Permutation_sym, Hf |].
      apply Permutation_sym, sort_by_perm.
    + intros Hnd. symmetry.
      apply sort_by_unique; [exact Hf |].
      intros x y Hx Hy.
      apply filter_In in Hx, Hy.
      apply (NoDup_map_inj orderdate df Hnd); tauto.
Qed.

Lemma C7_sorted_by_date_witness :
  Permutation scenario_a (rev scenario_a) /\
  NoDup (map orderdate scenario_a) /\
  sorted_by orderdate (anomalies scenario_a) /\
  anomalies (rev scenario_a) = anomalies scenario_a.
Proof.
  assert (Hnd : NoDup (map orderdate scenario_a)).
  { simpl. repeat constructor; simpl; intuition discriminate. }
  split; [apply Permutation_rev |].
  split; [exact Hnd |].
  split.
  - apply (C7_sorted_by_date scenario_a).
  - apply (proj2 (C7_sorted_by_date scenario_a) (rev scenario_a)
                 (Permutation_rev scenario_a)).
    exact Hnd.
Defined.

(** C10: the report is a rearrangement of the masked input rows: every
    reported row is an input row with its date and count as read, and no
    row is reported more often than it occurs in the input. *)
Theorem C10_output_rows_are_input_rows (df : DataFrame) :
  Permutation (anomalies df) (filter (is_anomaly df) df) /\
  (forall r, In r (anomalies df) -> In r df) /\
  (forall r, (count_occ DailyCount_eq_dec (anomalies df) r
              <= count_occ DailyCount_eq_dec df r)%nat).
Proof.
  pose proof (anomalies_perm df) as Hp.
  split; [exact Hp |]. split.
  - intros r Hr.
    apply (Permutation_in _ Hp) in Hr.
    now apply filter_In in Hr.
  - intros r.
    rewrite (proj1 (Permutation_count_occ DailyCount_eq_dec _ _) Hp r).
    apply count_occ_filter_le.
Qed.

(** * Effect facts *)

(** Whatever happens inside its [try] block, [connect] returns. *)
Lemma connect_returns (env : Env) (t : list event) :
  exists (r : option Engine) (t' : list event), connect env t = (Ok r, t').
Proof.
  unfold connect, try_except.
  destruct (bind _ _ t) as [[r | e] t'].
  - now exists r, t'.
  - unfold bind, emit, ret. eexists. eexists. reflexivity.
Qed.

(** A connection attempt the server refuses ends the analysis with that
    exception, before the query. *)
Lemma refused_connection_propagates (env : Env) (engine : Engine)
    (e : exn) (t : list event) :
  open_connection env (engine_url engine) = Raise e ->
  days_unusual_sale_counts env engine t = (Raise e, t).
Proof.
  intros H.
  unfold days_unusual_sale_counts, Engine_connect, bind, lift.
  now rewrite H.
Qed.

(** C4, as the specification states it, fails: on an empty query result
    the detector does not raise, and it writes the CSV file. *)
Lemma C4_empty_input_as_stated_fails :
  let run := days_unusual_sale_counts (env_of ini_ok (Ok tt) [])
                                      some_engine [] in
  ~ ((exists e, fst run = Raise e) /\
     (forall path header rows, ~ In (ToCsv path header rows) (snd run))).
Proof.
  intros run [_ Hno].
  apply (Hno "dates_unusual_sales.csv"%string
             ["orderdate"; "count"]%string []).
  vm_compute. right. right. left. reflexivity.
Qed.

(** C4, amended: when the query returns no row the detector raises
    nothing.  Both quartiles are NaN, no row is flagged, and the CSV
    file is written with its header line and no data row. *)
Theorem C4_empty_input_writes_header_only (env : Env) (engine : Engine)
    (t : list event) :
  open_connection env (engine_url engine) = Ok tt ->
  run_query env sales_by_date = Ok [] ->
  q_1 [] = NaN /\ q_3 [] = NaN /\ anomalies [] = [] /\
  days_unusual_sale_counts env engine t =
    (Ok tt,
     t ++ [Connect; Query sales_by_date;
           ToCsv "dates_unusual_sales.csv" ["orderdate"; "count"]%string [];
           Close]).
Proof.
  intros Hconn Hrows.
  repeat split.
  unfold days_unusual_sale_counts, Engine_connect, read_sql, to_csv,
    finally, bind, lift, emit.
  rewrite Hconn, Hrows.
  rewrite <- !app_assoc. reflexivity.
Qed.

Lemma C4_empty_input_writes_header_only_witness :
  open_connection (env_of ini_ok (Ok tt) []) (engine_url some_engine) = Ok tt /\
  run_query (env_of ini_ok (Ok tt) []) sales_by_date = Ok [] /\
  q_1 [] = NaN /\ q_3 [] = NaN /\ anomalies [] = [] /\
  days_unusual_sale_counts (env_of ini_ok (Ok tt) []) some_engine [] =
    (Ok tt,
     [Connect; Query sales_by_date;
      ToCsv "dates_unusual_sales.csv" ["orderdate"; "count"]%string [];
      Close]).
Proof.
  split; [reflexivity |].
  split; [reflexivity |].
  apply (C4_empty_input_writes_header_only
           (env_of ini_ok (Ok tt) []) some_engine []); reflexivity.
Defined.

(** C8 at a refused connection: the configuration is complete, so
    [connect] builds the engine without touching the server and prints
    nothing; the refusal is raised by [engine.connect()] inside the
    analysis, outside any handler, and the run ends with that exception
    uncaught. *)
Theorem C8_refused_connection_escapes :
  let env := env_of ini_ok (Raise refused) scenario_a in
  (exists engine, connect env [] = (Ok (Some engine), [])) /\
  main env [] = (Raise refused, []).
Proof.
  split; [eexists |]; vm_compute; reflexivity.
Qed.

(** C9: when the configuration source has no [postgresql] section,
    [get_config] raises a [ValueError] naming the section, [connect]
    prints it and returns no engine, and the run ends there: the trace
    gains the printed line and nothing else, so no connection, query or
    CSV file is made. *)
Theorem C9_missing_section_reported (env : Env) (parser : ConfigParser)
    (t : list event) :
  read_ini env "database.ini" = Ok parser ->
  has_section parser "postgresql" = false ->
  get_config env "database.ini" t =
    (Raise (mkExn "ValueError"
                  "Section postgresql not found in database.ini"), t) /\
  connect env t =
    (Ok None, t ++ [Print "Section postgresql not found in database.ini"]) /\
  main env t =
    (Ok tt, t ++ [Print "Section postgresql not found in database.ini"]).
Proof.
  intros Hread Hsec.
  assert (Hg : get_config env "database.ini" t =
               (Raise (mkExn "ValueError"
                         "Section postgresql not found in database.ini"), t)).
  { unfold get_config, bind, lift. rewrite Hread, Hsec. reflexivity. }
  assert (Hc : connect env t =
               (Ok None,
                t ++ [Print "Section postgresql not found in database.ini"])).
  { unfold connect, try_except, bind at 1. rewrite Hg. reflexivity. }
  repeat split; auto.
  unfold main, bind. rewrite Hc. reflexivity.
Qed.

Lemma C9_missing_section_reported_witness :
  read_ini (env_of [] (Ok tt) scenario_a) "database.ini" = Ok [] /\
  has_section [] "postgresql" = false /\
  get_config (env_of [] (Ok tt) scenario_a) "database.ini" [] =
    (Raise (mkExn "ValueError"
                  "Section postgresql not found in database.ini"), []) /\
  connect (env_of [] (Ok tt) scenario_a) [] =
    (Ok None, [Print "Section postgresql not found in database.ini"]) /\
  main (env_of [] (Ok tt) scenario_a) [] =
    (Ok tt, [Print "Section postgresql not found in database.ini"]).
Proof.
  split; [reflexivity |].
  split; [reflexivity |].
  apply (C9_missing_section_reported (env_of [] (Ok tt) scenario_a) [] []);
    reflexivity.
Defined.

(** * Further properties of the program *)

(** ** The configuration dict *)









(** ** Building the engine *)


(** [connect], step by step. *)
Lemma connect_steps (env : Env) (t : list event) :
  connect env t =
  match get_config env "database.ini" t with
  | (Ok params, t') =>
      match URL_create env "postgresql" params with
      | Ok url =>
          match load_dialect env url with
          | Ok _ => (Ok (Some (mkEngine url)), t')
          | Raise e => (Ok None, t' ++ [Print (exn_msg e)])
          end
      | Raise e => (Ok None, t' ++ [Print (exn_msg e)])
      end
  | (Raise e, t') => (Ok None, t' ++ [Print (exn_msg e)])
  end.
Proof.
  unfold connect, try_except, create_engine, bind, lift, ret, emit.
  destruct (get_config env "database.ini" t) as [[params | e] t'];
    [| reflexivity].
  destruct (URL_create env "postgresql" params) as [url | e];
    [| reflexivity].
  destruct (load_dialect env url) as [[] | e]; reflexivity.
Qed.





(** X4: any exception of the engine construction ([URL.create] refusing
    the parameters, the driver lookup failing) ends the run quietly:
    the program prints the exception's text and stops with no
    connection, no query and no CSV file. *)
Theorem main_stops_on_engine_failure (env : Env) (params : dict) (e : exn)
    (t : list event) :
  get_config env "database.ini" t = (Ok params, t) ->
  (URL_create env "postgresql" params = Raise e \/
   exists url, URL_create env "postgresql" params = Ok url /\
               load_dialect env url = Raise e) ->
  main env t = (Ok tt, t ++ [Print (exn_msg e)]).
Proof.
  intros Hcfg Hfail.
  unfold main, bind. rewrite connect_steps, Hcfg.
  destruct Hfail as [Hurl | (url & Hurl & Hload)].
  - now rewrite Hurl.
  - now rewrite Hurl, Hload.
Qed.

Lemma main_stops_on_engine_failure_witness :
  get_config env_bad_keyword "database.ini" [] =
    (Ok [("host", "localhost"); ("user", "postgres")]%string, []) /\
  URL_create env_bad_keyword "postgresql"
             [("host", "localhost"); ("user", "postgres")]%string
    = Raise unexpected_keyword /\
  main env_bad_keyword [] =
    (Ok tt, [Print "URL.create() got an unexpected keyword argument 'user'"]).
Proof.
  split; [reflexivity |].
  split; [reflexivity |].
  apply (main_stops_on_engine_failure env_bad_keyword
           [("host", "localhost"); ("user", "postgres")]%string
           unexpected_keyword []);
    [reflexivity | left; reflexivity].
Defined.

(** ** The analysis and the whole run *)

(** [days_unusual_sale_counts], step by step. *)
Lemma days_unusual_sale_counts_steps (env : Env) (engine : Engine)
    (t : list event) :
  days_unusual_sale_counts env engine t =
  match open_connection env (engine_url engine) with
  | Raise e => (Raise e, t)
  | Ok _ =>
      match run_query env sales_by_date with
      | Raise e => (Raise e, t ++ [Connect; Query sales_by_date; Close])
      | Ok transaction_counts =>
          (Ok tt,
           t ++ [Connect; Query sales_by_date;
                 ToCsv "dates_unusual_sales.csv"
                       ["orderdate"; "count"]%string
                       (anomalies transaction_counts);
                 Close])
      end
  end.
Proof.
  unfold days_unusual_sale_counts, Engine_connect, read_sql, to_csv,
    finally, bind, lift, emit.
  destruct (open_connection env (engine_url engine)) as [[] | e];
    [| reflexivity].
  destruct (run_query env sales_by_date) as [rows | e];
    rewrite <- !app_assoc; reflexivity.
Qed.

(** X5: when the query fails on an open connection, the exception leaves
    [days_unusual_sale_counts] as it is, the connection is closed on the
    way out, and no CSV file is written. *)
Theorem query_failure_closes_and_propagates (env : Env) (engine : Engine)
    (e : exn) (t : list event) :
  open_connection env (engine_url engine) = Ok tt ->
  run_query env sales_by_date = Raise e ->
  days_unusual_sale_counts env engine t =
    (Raise e, t ++ [Connect; Query sales_by_date; Close]).
Proof.
  intros Hconn Hq.
  rewrite days_unusual_sale_counts_steps. now rewrite Hconn, Hq.
Qed.

Lemma query_failure_closes_and_propagates_witness :
  open_connection env_query_fails (engine_url some_engine) = Ok tt /\
  run_query env_query_fails sales_by_date = Raise no_such_table /\
  days_unusual_sale_counts env_query_fails some_engine [] =
    (Raise no_such_table, [Connect; Query sales_by_date; Close]).
Proof.
  split; [reflexivity |].
  split; [reflexivity |].
  apply (query_failure_closes_and_propagates env_query_fails some_engine
           no_such_table []); reflexivity.
Defined.




(** ** The quartiles and the mask *)



(** A row whose count lies within the bounds is not masked. *)
Lemma unflagged_within (df : DataFrame) (a b : Q) (r : DailyCount) :
  q_1 df = Fin a -> q_3 df = Fin b ->
  (a - (3 # 2) * (b - a) <= inject_Z (count r))%Q ->
  (inject_Z (count r) <= b + (3 # 2) * (b - a))%Q ->
  is_anomaly df r = false.
Proof.
  intros Ha Hb Hlo Hhi.
  unfold is_anomaly, between, lower_bound, upper_bound, iqr, of_int.
  rewrite Ha, Hb. simpl.
  apply negb_false_iff, andb_true_iff.
  split; apply Qle_bool_iff; assumption.
Qed.



(** X9: the bounds are a function of the counts as a multiset: two
    frames whose count columns are rearrangements of each other, whatever
    their dates, get the same quartiles, the same bounds and the same
    mask. *)
Theorem bounds_depend_on_counts_only (df df' : DataFrame) :
  Permutation (counts df) (counts df') ->
  q_1 df = q_1 df' /\ q_3 df = q_3 df' /\ iqr df = iqr df' /\
  lower_bound df = lower_bound df' /\ upper_bound df = upper_bound df' /\
  forall r, is_anomaly df r = is_anomaly df' r.
Proof.
  intros Hc.
  assert (H1 : q_1 df = q_1 df') by (unfold q_1; now apply quantile_perm).
  assert (H3 : q_3 df = q_3 df') by (unfold q_3; now apply quantile_perm).
  unfold is_anomaly, lower_bound, upper_bound, iqr.
  rewrite H1, H3. repeat split.
Qed.

Lemma bounds_depend_on_counts_only_witness :
  Permutation (counts [mkDailyCount 1 7; mkDailyCount 2 9])
              (counts [mkDailyCount 5 9; mkDailyCount 3 7]) /\
  lower_bound [mkDailyCount 1 7; mkDailyCount 2 9] =
  lower_bound [mkDailyCount 5 9; mkDailyCount 3 7].
Proof.
  split; [apply perm_swap |].
  apply (bounds_depend_on_counts_only
           [mkDailyCount 1 7; mkDailyCount 2 9]
           [mkDailyCount 5 9; mkDailyCount 3 7]).
  apply perm_swap.
Defined.

(** X10: rows whose count lies between the quartiles are never flagged. *)
Theorem middle_rows_never_flagged (df : DataFrame) (a b : Q)
    (r : DailyCount) :
  q_1 df = Fin a -> q_3 df = Fin b ->
  (a <= inject_Z (count r))%Q -> (inject_Z (count r) <= b)%Q ->
  is_anomaly df r = false /\ ~ In r (anomalies df).
Proof.
  intros Ha Hb Hlo Hhi.
  assert (Hf : is_anomaly df r = false)
    by (apply (unflagged_within df a b); auto; lra).
  split; [exact Hf |].
  intros Hin.
  apply (Permutation_in _ (anomalies_perm df)) in Hin.
  apply filter_In in Hin. destruct Hin as [_ Ht]. congruence.
Qed.

Lemma middle_rows_never_flagged_witness :
  q_1 scenario_a = Fin (48 # 4) /\ q_3 scenario_a = Fin (58 # 4) /\
  (48 # 4 <= inject_Z 13)%Q /\ (inject_Z 13 <= 58 # 4)%Q /\
  is_anomaly scenario_a (mkDailyCount 738524 13) = false /\
  ~ In (mkDailyCount 738524 13) (anomalies scenario_a).
Proof.
  assert (H1 : (48 # 4 <= inject_Z 13)%Q) by (unfold Qle; simpl; lia).
  assert (H2 : (inject_Z 13 <= 58 # 4)%Q) by (unfold Qle; simpl; lia).
  split; [reflexivity |].
  split; [reflexivity |].
  split; [exact H1 |].
  split; [exact H2 |].
  apply (middle_rows_never_flagged scenario_a (48 # 4) (58 # 4));
    [reflexivity | reflexivity | exact H1 | exact H2].
Defined.












